(** * Event extractor: the FastAPI backend and the Streamlit demo shell

    A shallow embedding of [react-version/backend/main.py] and
    [streamlit-version/app.py].  Python code that reads the process
    environment, calls the OpenAI SDK, prints, raises and catches is written
    in a small state-and-exception monad [py] over an explicit [world].  The
    libraries the two programs call (the OpenAI SDK, pydantic's validation
    message) are not part of the repository: they are taken as a parameter
    [Libs], and every theorem holds for all of them. *)

From stdpp Require Import base strings gmap list pretty.
From Stdlib Require Import ZArith.

Set Warnings "-register-all".
Local Open Scope string_scope.
Local Open Scope Z_scope.

(** ** Python values *)

(** JSON-like values: what [model_dump], a dict literal and a JSON response
    body are made of.  A Python dict keeps its insertion order, so an object
    is an association list. *)
Inductive json : Type :=
| JNull
| JBool (b : bool)
| JStr (s : string)
| JList (l : list json)
| JObj (kv : list (string * json)).

(** Exceptions.  [Exception msg] is any [Exception] instance raised by a
    library or by the interpreter, known by its [str(e)]; [HTTPException] is
    FastAPI's. *)
Inductive exn : Type :=
| Exception (msg : string)
| HTTPException (status_code : Z) (detail : string).

(** [str(e)]; starlette prints an HTTPException as "<status>: <detail>". *)
Definition str (e : exn) : string :=
  match e with
  | Exception msg => msg
  | HTTPException c d => pretty c ++ ": " ++ d
  end.

(** ** The schema (declared alike in both programs) *)

Record CalendarEvent : Type := {
  name : string;
  date : string;
  participants : list string
}.

(** [event.model_dump()]: the fields in declaration order. *)
Definition model_dump (e : CalendarEvent) : json :=
  JObj [("name", JStr (name e));
        ("date", JStr (date e));
        ("participants", JList (JStr <$> participants e))].

(** ** The OpenAI SDK as the programs use it *)

(** One entry of the [input=[...]] list. *)
Record message : Type := { role : string; content : string }.

(** The keyword arguments of [client.responses.parse]; [text_format] is the
    class [CalendarEvent], given by its field names. *)
Record parse_request : Type := {
  model : string;
  input : list message;
  text_format : list string
}.

(** The client object: it keeps the key it was built with. *)
Record OpenAI : Type := { api_key : option string }.

(** What [client.responses.parse(...)] does: it returns a response whose
    [output_parsed] is a [CalendarEvent] or [None], or it raises. *)
Inductive parse_result : Type :=
| output_parsed (o : option CalendarEvent)
| parse_raises (msg : string).

(** The libraries, as parameters.
    - [OpenAI_init k]: [OpenAI(api_key=k)] raises (with this [str]) or builds
      the client;
    - [responses_parse c rq log]: the outcome of the call [rq] through client
      [c] when [log] are the calls made before it (the service may answer the
      same request differently the next time);
    - [none_event_error]: [str] of the pydantic [ValidationError] raised by
      [EventResponse(success=True, event=None)]. *)
Record Libs : Type := {
  OpenAI_init : option string → option string;
  responses_parse : OpenAI → parse_request → list parse_request → parse_result;
  none_event_error : string
}.

(** ** The world and the monad *)

(** A page element written by a Streamlit call. *)
Inductive element : Type :=
| st_set_page_config (page_title layout : string)
| st_title (s : string)
| st_write (s : string)
| st_subheader (s : string)
| st_divider
| st_spinner (s : string)
| st_json (j : json)
| st_success (s : string).

Record world : Type := {
  environ : gmap string string;     (* os.environ *)
  calls : list parse_request;       (* invocations of client.responses.parse
                                       so far, oldest first *)
  stdout : list string;             (* lines printed so far *)
  page : list element               (* Streamlit elements written so far *)
}.

Inductive outcome (A : Type) : Type :=
| Ret (a : A)
| Raise (e : exn).
Arguments Ret {A} a.
Arguments Raise {A} e.

Definition py (A : Type) : Type := world → outcome A * world.

Definition py_ret {A} (a : A) : py A := λ w, (Ret a, w).

Definition py_bind {A B} (m : py A) (k : A → py B) : py B :=
  λ w, match m w with
       | (Ret a, w') => k a w'
       | (Raise e, w') => (Raise e, w')
       end.

#[global] Instance py_mret : MRet py := @py_ret.
#[global] Instance py_mbind : MBind py := λ A B k m, py_bind m k.

Definition raise {A} (e : exn) : py A := λ w, (Raise e, w).

(** [try: body  except Exception as e: handler e]. *)
Definition try_except {A} (body : py A) (handler : exn → py A) : py A :=
  λ w, match body w with
       | (Ret a, w') => (Ret a, w')
       | (Raise e, w') => handler e w'
       end.

Definition OPENAI_API_KEY : string := "OPENAI_API_KEY".

(** [os.getenv(k)] *)
Definition os_getenv (k : string) : py (option string) :=
  λ w, (Ret (environ w !! k), w).

(** World updates: one more outbound call, printed line, page element. *)
Definition add_call (rq : parse_request) (w : world) : world :=
  {| environ := environ w; calls := calls w ++ [rq];
     stdout := stdout w; page := page w |}.

Definition add_stdout (s : string) (w : world) : world :=
  {| environ := environ w; calls := calls w;
     stdout := stdout w ++ [s]; page := page w |}.

Definition add_element (e : element) (w : world) : world :=
  {| environ := environ w; calls := calls w;
     stdout := stdout w; page := page w ++ [e] |}.

(** [print(s)] *)
Definition print (s : string) : py unit := λ w, (Ret tt, add_stdout s w).

(** A Streamlit call that writes an element. *)
Definition st (e : element) : py unit := λ w, (Ret tt, add_element e w).

(** The credential variable changed from outside the code under study:
    [os.environ[K] = s], or [del os.environ[K]] for [None]. *)
Definition set_credential (v : option string) (w : world) : world :=
  {| environ := match v with
                | Some s => <[OPENAI_API_KEY := s]> (environ w)
                | None => delete OPENAI_API_KEY (environ w)
                end;
     calls := calls w; stdout := stdout w; page := page w |}.

(** Truth value of [os.getenv(...)]: [None] and the empty string are false. *)
Definition truthy (v : option string) : bool :=
  match v with
  | None => false
  | Some s => negb (String.eqb s "")
  end.

(** The credential as the process sees it now, and whether the backend's
    test [if not os.getenv("OPENAI_API_KEY")] lets a request through. *)
Definition credential (w : world) : option string :=
  environ w !! OPENAI_API_KEY.

Definition credential_configured (w : world) : bool := truthy (credential w).

Section Sdk.
Variable L : Libs.

  (** [OpenAI(api_key=k)] *)
Definition OpenAI_new (k : option string) : py OpenAI :=
    match OpenAI_init L k with
    | Some msg => raise (Exception msg)
    | None => mret {| api_key := k |}
    end.

  (** [client.responses.parse(...)]: the one place an outbound call is made.
      Each invocation is logged once, whether it returns or raises; the value
      is [response.output_parsed].  The log counts invocations of the SDK
      method, not HTTP requests: both programs build the client with
      [api_key] only, so the SDK keeps its own retry policy and may send the
      request of one invocation more than once.  That happens inside the
      library and is not visible here. *)
Definition client_responses_parse (client : OpenAI) (rq : parse_request)
    : py (option CalendarEvent) :=
    λ w,
      match responses_parse L client rq (calls w) with
      | output_parsed o => (Ret o, add_call rq w)
      | parse_raises msg => (Raise (Exception msg), add_call rq w)
      end.
End Sdk.

(** The request both programs send for a text. *)
Definition parse_request_for (text : string) : parse_request :=
  {| model := "gpt-4o-2024-08-06";
     input := [ {| role := "system"; content := "Extract the event information." |};
                {| role := "user"; content := text |} ];
     text_format := ["name"; "date"; "participants"] |}.

(** ** [react-version/backend/main.py] *)
Module Backend.

Record EventRequest : Type := { text : string }.

Record EventResponse : Type := { success : bool; event : CalendarEvent }.

  (** Declared by the module; no code path builds one. *)
Record ErrorResponse : Type := { error_success : bool; error : string }.

Definition EventResponse_dump (r : EventResponse) : json :=
    JObj [("success", JBool (success r)); ("event", model_dump (event r))].

Definition ErrorResponse_dump (r : ErrorResponse) : json :=
    JObj [("success", JBool (error_success r)); ("error", JStr (error r))].

  (** An HTTP response: status code and JSON body. *)
Record http_response : Type := { status : Z; body : json }.

  (** [GET /] *)
Definition read_root : json :=
    JObj [("message", JStr "Event Extractor API");
          ("version", JStr "1.0.0");
          ("endpoints",
           JObj [("POST /api/extract-event",
                  JStr "Extract event information from text")])].

Definition not_configured : string :=
    "OpenAI API key not configured. Set OPENAI_API_KEY environment variable.".

Definition failed_prefix : string := "Failed to extract event information: ".

Section WithLibs.
Variable L : Libs.

    (** [EventResponse(success=..., event=...)]: [event] is a required
        [CalendarEvent] field, so [None] fails validation. *)
Definition EventResponse_new (success : bool) (event : option CalendarEvent)
      : py EventResponse :=
      match event with
      | Some ev => mret {| success := success; event := ev |}
      | None => raise (Exception (none_event_error L))
      end.

    (** Module level: [client = OpenAI(api_key=os.getenv("OPENAI_API_KEY"))],
        run once when the module is imported. *)
Definition module_client : py OpenAI :=
      k ← os_getenv OPENAI_API_KEY;
      OpenAI_new L k.

    (** The handler of [POST /api/extract-event]; [client] is the module's
        global. *)
Definition extract_event (client : OpenAI) (request : EventRequest)
      : py EventResponse :=
      k ← os_getenv OPENAI_API_KEY;
      if negb (truthy k) then
        raise (HTTPException 500 not_configured)
      else
        try_except
          (event ← client_responses_parse L client
                     (parse_request_for (text request));
           EventResponse_new true event)
          (λ e,
             _ ← print ("Error extracting event: " ++ str e);
             raise (HTTPException 500 (failed_prefix ++ str e))).

    (** What FastAPI sends for the handler's outcome: a returned model with
        status 200 (rendered through [response_model=EventResponse]); a
        raised [HTTPException] through the default handler, as its status
        and the body [{"detail": detail}]; anything else raised as a plain
        500. *)
Definition post_extract_event (client : OpenAI) (request : EventRequest)
      : world → http_response * world :=
      λ w, match extract_event client request w with
           | (Ret r, w') =>
               ({| status := 200; body := EventResponse_dump r |}, w')
           | (Raise (HTTPException c d), w') =>
               ({| status := c; body := JObj [("detail", JStr d)] |}, w')
           | (Raise (Exception _), w') =>
               ({| status := 500; body := JStr "Internal Server Error" |}, w')
           end.

(** A run of the service after start-up, as a list of requests, each with
    the value the credential variable has when the request arrives
    ([None]: unset).  The responses come back in request order. *)
Fixpoint serve (client : OpenAI) (steps : list (option string * EventRequest))
  (w : world) : list http_response * world :=
  match steps with
  | [] => ([], w)
  | (v, request) :: rest =>
      let '(r, w1) := post_extract_event client request (set_credential v w) in
      let '(rs, w2) := serve client rest w1 in
      (r :: rs, w2)
  end.

(** The process: import the module (which builds [client]), then serve.
    [None] when the import itself raises. *)
Definition run (steps : list (option string * EventRequest)) (w : world)
  : option (list http_response) :=
  match module_client w with
  | (Ret client, w1) => Some (fst (serve client steps w1))
  | (Raise _, _) => None
  end.
End WithLibs.
End Backend.

(** ** [streamlit-version/app.py] *)
Module Shell.

(** [str] of the [AttributeError] raised by [None.model_dump()]. *)
Definition none_model_dump_error : string :=
  "'NoneType' object has no attribute 'model_dump'".

(** The values the input widgets return in one run of the script. *)
Record widgets : Type := {
  text_input : string;        (* "Enter your name:" *)
  slider : Z;                 (* "Select your age:", 0 to 120, default 25 *)
  selectbox : string;         (* "Choose your favorite activity:" *)
  text_area : string;         (* "Enter event description:" *)
  button_extract : bool;      (* "Extract Event Info" *)
  button_click_me : bool      (* "Click me!" *)
}.

Definition selectbox_options : list string :=
  ["Programming"; "Walking"; "Reading"; "Sports"; "Other"].

Definition text_area_default : string :=
  "Alice and Bob are going to a science fair on Friday.".

(** Python's truth value of a string. *)
Definition nonempty (s : string) : bool := negb (String.eqb s "").

Section WithLibs.
Variable L : Libs.

Definition extract_event_info (text : string) : py json :=
  k ← os_getenv OPENAI_API_KEY;
  client ← OpenAI_new L k;
  try_except
    (event ← client_responses_parse L client (parse_request_for text);
     match event with
     | Some ev => mret (model_dump ev)
     | None => raise (Exception none_model_dump_error)
     end)
    (λ e, mret (JObj [("error", JStr (str e))])).

(** One run of the script, top to bottom. *)
Definition app (ui : widgets) : py unit :=
  _ ← st (st_set_page_config "Simple Demo" "centered");
  _ ← st (st_title "ðŸŽ‰ Welcome!");
  _ ← st (st_write "This is a simple Streamlit application.");
  let name := text_input ui in
  _ ← (if nonempty name then st (st_write ("Hello, " ++ name ++ "! ðŸ‘‹"))
       else mret tt);
  let age := slider ui in
  _ ← st (st_write ("Your age: " ++ pretty age ++ " years old"));
  _ ← st (st_subheader "What do you enjoy doing?");
  let activity := selectbox ui in
  _ ← st (st_write ("You selected: **" ++ activity ++ "**"));
  _ ← st st_divider;
  _ ← st (st_subheader "ðŸ¤– AI Event Extractor Demo");
  _ ← st (st_write "Test the OpenAI structured output parser:");
  let event_text := text_area ui in
  _ ← (if button_extract ui then
         _ ← st (st_spinner "Processing...");
         result ← extract_event_info event_text;
         st (st_json result)
       else mret tt);
  _ ← (if button_click_me ui then st (st_success "Great! ðŸŽŠ") else mret tt);
  _ ← st st_divider;
  st (st_write "âœ¨ Demo complete! âœ¨").
End WithLibs.

(** The documents shown by [st.json] on a page. *)
Definition shown_json (p : list element) : list json :=
  omap (λ e, match e with st_json j => Some j | _ => None end) p.

(** The same run with other values in the three unrelated controls. *)
Definition with_controls (name : string) (age : Z) (activity : string)
  (ui : widgets) : widgets :=
  {| text_input := name; slider := age; selectbox := activity;
     text_area := text_area ui; button_extract := button_extract ui;
     button_click_me := button_click_me ui |}.
End Shell.

(** ** Reading results back *)

Fixpoint assoc (k : string) (kv : list (string * json)) : option json :=
  match kv with
  | [] => None
  | (k', v) :: rest => if String.eqb k k' then Some v else assoc k rest
  end.

(** [d.get(k)] on a JSON object. *)
Definition dict_get (k : string) (j : json) : option json :=
  match j with
  | JObj kv => assoc k kv
  | _ => None
  end.

Definition as_str (j : json) : option string :=
  match j with
  | JStr s => Some s
  | _ => None
  end.

(** A JSON list of strings, read back as the list of strings. *)
Definition as_str_list (j : json) : option (list string) :=
  match j with
  | JList l => mapM as_str l
  | _ => None
  end.

(** [d.get("participants")] read back as a list of strings. *)
Definition participants_of (j : json) : option (list string) :=
  match dict_get "participants" j with
  | Some l => as_str_list l
  | None => None
  end.

(** The same for the event inside a response body. *)
Definition body_participants (j : json) : option (list string) :=
  match dict_get "event" j with
  | Some ev => participants_of ev
  | None => None
  end.

(** The two shapes a result document of the demo shell can have. *)
Definition is_event_document (j : json) : Prop := ∃ ev, j = model_dump ev.

Definition is_error_document (j : json) : Prop :=
  ∃ msg, j = JObj [("error", JStr msg)].

(** ** Test doubles and sample worlds *)
Module Stub.

Definition science_fair : CalendarEvent :=
  {| name := "science fair"; date := "Friday";
     participants := ["Alice"; "Bob"] |}.

(** The constructor refuses a missing key and accepts any string; the
    service answers the key "sk-test" with the science fair and refuses
    every other key. *)
Definition sdk : Libs :=
  {| OpenAI_init := λ k, match k with
                         | None => Some "The api_key client option must be set"
                         | Some _ => None
                         end;
     responses_parse := λ c _ _,
       if decide (api_key c = Some "sk-test")
       then output_parsed (Some science_fair)
       else parse_raises "401 Unauthorized";
     none_event_error := "1 validation error for EventResponse" |}.

(** A service whose call raises an exception with empty text, as
    [raise Exception()] does. *)
Definition silent : Libs :=
  {| OpenAI_init := λ _, None;
     responses_parse := λ _ _ _, parse_raises "";
     none_event_error := "1 validation error for EventResponse" |}.

(** A service that returns a response with [output_parsed = None]. *)
Definition unparsed : Libs :=
  {| OpenAI_init := λ _, None;
     responses_parse := λ _ _ _, output_parsed None;
     none_event_error := "1 validation error for EventResponse" |}.

(** A service that fails the first call it ever gets and answers every
    later one. *)
Definition flaky : Libs :=
  {| OpenAI_init := λ _, None;
     responses_parse := λ _ _ log,
       match log with
       | [] => parse_raises "Connection error."
       | _ => output_parsed (Some science_fair)
       end;
     none_event_error := "1 validation error for EventResponse" |}.

Definition fresh (env : gmap string string) : world :=
  {| environ := env; calls := []; stdout := []; page := [] |}.

Definition env_key : gmap string string := {[ OPENAI_API_KEY := "sk-test" ]}.
Definition env_empty_key : gmap string string := {[ OPENAI_API_KEY := "" ]}.
Definition env_unset : gmap string string := ∅.

Definition sample : string := Shell.text_area_default.

Definition sample_request : Backend.EventRequest :=
  {| Backend.text := sample |}.

Definition ui : Shell.widgets :=
  {| Shell.text_input := ""; Shell.slider := 25;
     Shell.selectbox := "Programming"; Shell.text_area := sample;
     Shell.button_extract := true; Shell.button_click_me := false |}.
End Stub.

(** What the backend's credential test sees of a run: for each request,
    whether the variable was set and non-empty when it arrived. *)
Definition guard_view (steps : list (option string * Backend.EventRequest))
  : list (bool * Backend.EventRequest) :=
  (λ p, (truthy (fst p), snd p)) <$> steps.

(** A result document read back as a [CalendarEvent]: all three fields. *)
Definition read_event (j : json) : option CalendarEvent :=
  match dict_get "name" j, dict_get "date" j, participants_of j with
  | Some (JStr n), Some (JStr d), Some ps =>
      Some {| name := n; date := d; participants := ps |}
  | _, _, _ => None
  end.

(** The event inside a response body, read back. *)
Definition body_event (j : json) : option CalendarEvent :=
  match dict_get "event" j with
  | Some ev => read_event ev
  | None => None
  end.

(** The invocations of [client.responses.parse] a run of the backend is due:
    one for each request that arrived while the credential was set and
    non-empty, in order. *)
Definition due_calls (steps : list (option string * Backend.EventRequest))
  : list parse_request :=
  (λ p, parse_request_for (Backend.text (snd p)))
    <$> List.filter (λ p, truthy (fst p)) steps.

(** ** Both routes of the backend *)
Module Routes.

(** A request to one of the two routes the module registers:
    [@app.get("/")] and [@app.post("/api/extract-event")]. *)
Inductive http_request : Type :=
| GET_root
| POST_extract_event (request : Backend.EventRequest).

(** [GET /]: FastAPI answers 200 with the dict [read_root] returns. *)
Definition get_root : world → Backend.http_response * world :=
  λ w, ({| Backend.status := 200; Backend.body := Backend.read_root |}, w).

Definition handle (L : Libs) (client : OpenAI) (rq : http_request)
  : world → Backend.http_response * world :=
  match rq with
  | GET_root => get_root
  | POST_extract_event request => Backend.post_extract_event L client request
  end.

(** A run with requests to both routes, each with the value the credential
    variable has when it arrives. *)
Fixpoint serve (L : Libs) (client : OpenAI)
  (steps : list (option string * http_request)) (w : world)
  : list Backend.http_response * world :=
  match steps with
  | [] => ([], w)
  | (v, rq) :: rest =>
      let '(r, w1) := handle L client rq (set_credential v w) in
      let '(rs, w2) := serve L client rest w1 in
      (r :: rs, w2)
  end.

(** The POST requests of a run, and the responses given to them. *)
Fixpoint posts_of (steps : list (option string * http_request))
  : list (option string * Backend.EventRequest) :=
  match steps with
  | [] => []
  | (v, POST_extract_event request) :: rest => (v, request) :: posts_of rest
  | (_, GET_root) :: rest => posts_of rest
  end.

Fixpoint post_responses (steps : list (option string * http_request))
  (rs : list Backend.http_response) : list Backend.http_response :=
  match steps, rs with
  | (_, POST_extract_event _) :: rest, r :: rs' => r :: post_responses rest rs'
  | (_, GET_root) :: rest, _ :: rs' => post_responses rest rs'
  | _, _ => []
  end.

(** The responses given to the GET requests of a run. *)
Fixpoint get_responses (steps : list (option string * http_request))
  (rs : list Backend.http_response) : list Backend.http_response :=
  match steps, rs with
  | (_, GET_root) :: rest, r :: rs' => r :: get_responses rest rs'
  | (_, POST_extract_event _) :: rest, _ :: rs' => get_responses rest rs'
  | _, _ => []
  end.
End Routes.

(** * Properties *)

(** ** The two functions, path by path *)

Ltac py_unfold :=
  unfold mbind, mret, py_mbind, py_mret, py_bind, py_ret, try_except, raise,
    os_getenv, print, st, OpenAI_new, client_responses_parse in *.

Section Equations.
Variable L : Libs.

Lemma extract_event_unconfigured client request w :
  credential_configured w = false →
  Backend.extract_event L client request w
  = (Raise (HTTPException 500 Backend.not_configured), w).
Proof.
  intros H. unfold Backend.extract_event. py_unfold.
  unfold credential_configured, credential in H. by rewrite H.
Qed.

Lemma extract_event_configured client request w :
  credential_configured w = true →
  Backend.extract_event L client request w
  = let rq := parse_request_for (Backend.text request) in
    match responses_parse L client rq (calls w) with
    | output_parsed (Some ev) =>
        (Ret {| Backend.success := true; Backend.event := ev |}, add_call rq w)
    | output_parsed None =>
        (Raise (HTTPException 500
                  (Backend.failed_prefix ++ none_event_error L)),
         add_stdout ("Error extracting event: " ++ none_event_error L)
           (add_call rq w))
    | parse_raises msg =>
        (Raise (HTTPException 500 (Backend.failed_prefix ++ msg)),
         add_stdout ("Error extracting event: " ++ msg) (add_call rq w))
    end.
Proof.
  intros H. unfold Backend.extract_event, Backend.EventResponse_new. py_unfold.
  unfold credential_configured, credential in H. rewrite H. cbn.
  destruct (responses_parse L client _ (calls w)) as [[ev|]|msg]; reflexivity.
Qed.

Lemma extract_event_info_init_raises text w msg :
  OpenAI_init L (credential w) = Some msg →
  Shell.extract_event_info L text w = (Raise (Exception msg), w).
Proof.
  intros H. unfold Shell.extract_event_info. py_unfold.
  unfold credential in H. by rewrite H.
Qed.

Lemma extract_event_info_init_ok text w :
  OpenAI_init L (credential w) = None →
  Shell.extract_event_info L text w
  = let rq := parse_request_for text in
    match responses_parse L {| api_key := credential w |} rq (calls w) with
    | output_parsed (Some ev) => (Ret (model_dump ev), add_call rq w)
    | output_parsed None =>
        (Ret (JObj [("error", JStr Shell.none_model_dump_error)]),
         add_call rq w)
    | parse_raises msg => (Ret (JObj [("error", JStr msg)]), add_call rq w)
    end.
Proof.
  intros H. unfold Shell.extract_event_info. py_unfold.
  unfold credential in *. rewrite H. cbn.
  destruct (responses_parse L _ _ (calls w)) as [[ev|]|msg]; reflexivity.
Qed.
End Equations.

Section Responses.
Variable L : Libs.

Lemma post_extract_event_unconfigured client request w :
  credential_configured w = false →
  Backend.post_extract_event L client request w
  = ({| Backend.status := 500;
        Backend.body := JObj [("detail", JStr Backend.not_configured)] |}, w).
Proof.
  intros H. unfold Backend.post_extract_event.
  by rewrite extract_event_unconfigured.
Qed.

Lemma post_extract_event_configured client request w :
  credential_configured w = true →
  Backend.post_extract_event L client request w
  = let rq := parse_request_for (Backend.text request) in
    match responses_parse L client rq (calls w) with
    | output_parsed (Some ev) =>
        ({| Backend.status := 200;
            Backend.body :=
              JObj [("success", JBool true); ("event", model_dump ev)] |},
         add_call rq w)
    | output_parsed None =>
        ({| Backend.status := 500;
            Backend.body :=
              JObj [("detail",
                     JStr (Backend.failed_prefix ++ none_event_error L))] |},
         add_stdout ("Error extracting event: " ++ none_event_error L)
           (add_call rq w))
    | parse_raises msg =>
        ({| Backend.status := 500;
            Backend.body :=
              JObj [("detail", JStr (Backend.failed_prefix ++ msg))] |},
         add_stdout ("Error extracting event: " ++ msg) (add_call rq w))
    end.
Proof.
  intros H. unfold Backend.post_extract_event.
  rewrite extract_event_configured by done. cbn.
  destruct (responses_parse L client _ (calls w)) as [[ev|]|msg]; reflexivity.
Qed.
End Responses.

Lemma event_document_not_error ev msg :
  model_dump ev ≠ JObj [("error", JStr msg)].
Proof. unfold model_dump. discriminate. Qed.

Lemma credential_set_credential v w :
  credential_configured (set_credential v w) = truthy v.
Proof.
  unfold credential_configured, credential, set_credential; cbn.
  destruct v as [s|]; [by rewrite lookup_insert_eq | by rewrite lookup_delete_eq].
Qed.

(** ** Missing credential *)

(** C1, as amended.  When the credential variable is unset or empty, the
    backend's handler raises HTTPException 500 with the fixed configuration
    message and leaves the world as it was (no outbound call), and the
    response is that 500.  The demo-shell function has no such check: it
    gives the variable's value to the client constructor; when the
    constructor raises, that exception leaves the function with no outbound
    call, and when it does not, the function goes on to its outbound call. *)
Theorem missing_credential_backend_checked_shell_unchecked
  (L : Libs) client request text w :
  credential_configured w = false →
  Backend.extract_event L client request w
  = (Raise (HTTPException 500 Backend.not_configured), w)
  ∧ Backend.post_extract_event L client request w
    = ({| Backend.status := 500;
          Backend.body := JObj [("detail", JStr Backend.not_configured)] |}, w)
  ∧ match OpenAI_init L (credential w) with
    | Some msg =>
        Shell.extract_event_info L text w = (Raise (Exception msg), w)
    | None =>
        calls (snd (Shell.extract_event_info L text w))
        = (calls w ++ [parse_request_for text])%list
    end.
Proof.
  intros H. split; [by apply extract_event_unconfigured|].
  split; [by apply post_extract_event_unconfigured|].
  destruct (OpenAI_init L (credential w)) as [msg|] eqn:Hinit.
  - by apply extract_event_info_init_raises.
  - rewrite extract_event_info_init_ok by done. cbn.
    by destruct (responses_parse L _ _ (calls w)) as [[ev|]|msg].
Qed.

Lemma missing_credential_witness :
  credential_configured (Stub.fresh Stub.env_unset) = false
  ∧ Backend.extract_event Stub.sdk {| api_key := Some "sk-test" |}
      Stub.sample_request (Stub.fresh Stub.env_unset)
    = (Raise (HTTPException 500 Backend.not_configured),
       Stub.fresh Stub.env_unset).
Proof.
  split; [reflexivity|].
  apply (missing_credential_backend_checked_shell_unchecked
           Stub.sdk {| api_key := Some "sk-test" |} Stub.sample_request
           Stub.sample (Stub.fresh Stub.env_unset)).
  reflexivity.
Defined.

(** C1 as stated fails in the demo shell: with the variable set to the empty
    string (which the backend's own test counts as not configured) the
    function builds a client and makes an outbound call. *)
Lemma shell_calls_out_with_empty_credential :
  credential_configured (Stub.fresh Stub.env_empty_key) = false
  ∧ Shell.extract_event_info Stub.sdk Stub.sample
      (Stub.fresh Stub.env_empty_key)
    = (Ret (JObj [("error", JStr "401 Unauthorized")]),
       add_call (parse_request_for Stub.sample)
         (Stub.fresh Stub.env_empty_key))
  ∧ calls (snd (Shell.extract_event_info Stub.sdk Stub.sample
                  (Stub.fresh Stub.env_empty_key)))
    ≠ calls (Stub.fresh Stub.env_empty_key).
Proof. split; [|split]; [vm_compute; reflexivity ..|]. vm_compute. discriminate. Qed.

(** ** Failed requests *)

(** C2, as amended.  Each of the three ways a request to POST
    /api/extract-event fails is answered 500 with the body [{"detail": d}]
    that FastAPI makes of the HTTPException the handler raises.  With the
    credential missing the handler raises HTTPException 500 with the fixed
    configuration message.  With the credential present, when the external
    call raises with text [msg] the handler raises HTTPException 500 with
    "Failed to extract event information: " followed by [msg]; when the
    call returns no parsed value it raises HTTPException 500 with the same
    prefix followed by the text of the validation error.  The shape
    [{success: false, error: ...}] is not produced. *)
Theorem failed_request_is_500_with_detail (L : Libs) client request w :
  (credential_configured w = false →
   fst (Backend.extract_event L client request w)
   = Raise (HTTPException 500 Backend.not_configured)
   ∧ fst (Backend.post_extract_event L client request w)
     = {| Backend.status := 500;
          Backend.body := JObj [("detail", JStr Backend.not_configured)] |})
  ∧ (∀ msg,
       credential_configured w = true →
       responses_parse L client (parse_request_for (Backend.text request))
         (calls w)
       = parse_raises msg →
       fst (Backend.extract_event L client request w)
       = Raise (HTTPException 500 (Backend.failed_prefix ++ msg))
       ∧ fst (Backend.post_extract_event L client request w)
         = {| Backend.status := 500;
              Backend.body :=
                JObj [("detail", JStr (Backend.failed_prefix ++ msg))] |})
  ∧ (credential_configured w = true →
     responses_parse L client (parse_request_for (Backend.text request))
       (calls w)
     = output_parsed None →
     fst (Backend.extract_event L client request w)
     = Raise (HTTPException 500 (Backend.failed_prefix ++ none_event_error L))
     ∧ fst (Backend.post_extract_event L client request w)
       = {| Backend.status := 500;
            Backend.body :=
              JObj [("detail",
                     JStr (Backend.failed_prefix ++ none_event_error L))] |}).
Proof.
  split; [|split].
  - intros Hc.
    by rewrite extract_event_unconfigured, post_extract_event_unconfigured.
  - intros msg Hc Hp.
    rewrite extract_event_configured, post_extract_event_configured by done.
    cbv zeta. by rewrite Hp.
  - intros Hc Hp.
    rewrite extract_event_configured, post_extract_event_configured by done.
    cbv zeta. by rewrite Hp.
Qed.

Lemma failed_request_witness :
  credential_configured (Stub.fresh {[ OPENAI_API_KEY := "sk-wrong" ]}) = true
  ∧ responses_parse Stub.sdk {| api_key := Some "sk-wrong" |}
      (parse_request_for (Backend.text Stub.sample_request))
      (calls (Stub.fresh {[ OPENAI_API_KEY := "sk-wrong" ]}))
    = parse_raises "401 Unauthorized"
  ∧ fst (Backend.post_extract_event Stub.sdk {| api_key := Some "sk-wrong" |}
           Stub.sample_request (Stub.fresh {[ OPENAI_API_KEY := "sk-wrong" ]}))
    = {| Backend.status := 500;
         Backend.body :=
           JObj [("detail",
                  JStr (Backend.failed_prefix ++ "401 Unauthorized"))] |}.
Proof.
  split; [reflexivity|]. split; [reflexivity|].
  apply (proj1 (proj2 (failed_request_is_500_with_detail Stub.sdk
                         {| api_key := Some "sk-wrong" |} Stub.sample_request
                         (Stub.fresh {[ OPENAI_API_KEY := "sk-wrong" ]})))
           "401 Unauthorized");
    reflexivity.
Defined.

(** C2 as stated fails: a request made with a key the service refuses is
    answered 500 with the body [{"detail": ...}], which is not of the shape
    [{success: false, error: ...}] for any error text. *)
Lemma error_body_is_detail_not_ErrorResponse :
  Backend.run Stub.sdk [(Some "sk-wrong", Stub.sample_request)]
    (Stub.fresh {[ OPENAI_API_KEY := "sk-wrong" ]})
  = Some [ {| Backend.status := 500;
              Backend.body :=
                JObj [("detail",
                       JStr "Failed to extract event information: 401 Unauthorized")] |} ]
  ∧ ∀ s e,
      JObj [("detail",
             JStr "Failed to extract event information: 401 Unauthorized")]
      ≠ Backend.ErrorResponse_dump
          {| Backend.error_success := s; Backend.error := e |}.
Proof.
  split; [vm_compute; reflexivity|].
  intros s e. unfold Backend.ErrorResponse_dump. cbn. discriminate.
Qed.

(** ** Success or failure *)

(** C3, as amended.  The handler of the backend ends in exactly one of two
    ways: it returns an EventResponse with [success = True] and a
    three-field CalendarEvent, or it raises HTTPException 500 with a
    non-empty description.  The demo-shell function, once its client is
    built, returns exactly one of: the three-field document of a
    CalendarEvent, or [{"error": str(e)}], whose text is that of the caught
    exception and may be empty. *)
Theorem result_is_event_or_error (L : Libs) client request text w :
  ((∃ ev, fst (Backend.extract_event L client request w)
          = Ret {| Backend.success := true; Backend.event := ev |})
   ∨ (∃ d, fst (Backend.extract_event L client request w)
           = Raise (HTTPException 500 d) ∧ d ≠ ""))
  ∧ (OpenAI_init L (credential w) = None →
     ∃ j, fst (Shell.extract_event_info L text w) = Ret j
          ∧ ((is_event_document j ∧ ¬ is_error_document j)
             ∨ (is_error_document j ∧ ¬ is_event_document j))).
Proof.
  split.
  - destruct (credential_configured w) eqn:Hc.
    + rewrite extract_event_configured by done. cbn.
      destruct (responses_parse L client _ (calls w)) as [[ev|]|msg]; cbn.
      * left. by exists ev.
      * right. eexists; split; [reflexivity|]. discriminate.
      * right. eexists; split; [reflexivity|]. discriminate.
    + rewrite extract_event_unconfigured by done. cbn.
      right. eexists; split; [reflexivity|]. discriminate.
  - intros Hinit. rewrite extract_event_info_init_ok by done. cbn.
    destruct (responses_parse L _ _ (calls w)) as [[ev|]|msg]; cbn;
      eexists; (split; [reflexivity|]).
    + left. split; [by exists ev|]. intros [m Hm].
      by apply event_document_not_error in Hm.
    + right. split; [by eexists|]. intros [ev Hev].
      symmetry in Hev. by apply event_document_not_error in Hev.
    + right. split; [by eexists|]. intros [ev Hev].
      symmetry in Hev. by apply event_document_not_error in Hev.
Qed.

Lemma result_is_event_or_error_witness :
  OpenAI_init Stub.sdk (credential (Stub.fresh Stub.env_key)) = None
  ∧ ∃ j, fst (Shell.extract_event_info Stub.sdk Stub.sample
                (Stub.fresh Stub.env_key)) = Ret j
         ∧ ((is_event_document j ∧ ¬ is_error_document j)
            ∨ (is_error_document j ∧ ¬ is_event_document j)).
Proof.
  split; [reflexivity|].
  apply (result_is_event_or_error Stub.sdk {| api_key := Some "sk-test" |}
           Stub.sample_request Stub.sample (Stub.fresh Stub.env_key)).
  reflexivity.
Defined.

(** C3 as stated fails in the demo shell: when the external call raises an
    exception whose text is empty, the function returns [{"error": ""}], a
    failure with an empty description. *)
Lemma shell_error_description_can_be_empty :
  fst (Shell.extract_event_info Stub.silent Stub.sample
         (Stub.fresh Stub.env_key))
  = Ret (JObj [("error", JStr "")]).
Proof. vm_compute. reflexivity. Qed.

(** ** The credential over a run *)

Section Runs.
Variable L : Libs.

Lemma post_extract_event_guard client request w1 w2 :
  calls w1 = calls w2 →
  credential_configured w1 = credential_configured w2 →
  fst (Backend.post_extract_event L client request w1)
  = fst (Backend.post_extract_event L client request w2)
  ∧ calls (snd (Backend.post_extract_event L client request w1))
    = calls (snd (Backend.post_extract_event L client request w2)).
Proof.
  intros Hcalls Hc. destruct (credential_configured w2) eqn:Hc2.
  - rewrite !post_extract_event_configured by done. cbn. rewrite Hcalls.
    destruct (responses_parse L client _ (calls w2)) as [[ev|]|msg]; cbn;
      by rewrite Hcalls.
  - by rewrite !post_extract_event_unconfigured.
Qed.

Lemma serve_guard client steps1 :
  ∀ steps2 w1 w2,
    guard_view steps1 = guard_view steps2 →
    calls w1 = calls w2 →
    fst (Backend.serve L client steps1 w1)
    = fst (Backend.serve L client steps2 w2).
Proof.
  induction steps1 as [|[v1 r1] rest1 IH]; intros [|[v2 r2] rest2] w1 w2 Hv Hcalls;
    try discriminate; [reflexivity|].
  cbn in Hv. injection Hv as Hb Hr Hrest. subst r2. cbn.
  destruct (post_extract_event_guard client r1
              (set_credential v1 w1) (set_credential v2 w2)) as [Hresp Hnext].
  { exact Hcalls. }
  { by rewrite !credential_set_credential. }
  destruct (Backend.post_extract_event L client r1 (set_credential v1 w1))
    as [resp1 w1'].
  destruct (Backend.post_extract_event L client r1 (set_credential v2 w2))
    as [resp2 w2'].
  cbn in Hresp, Hnext. subst resp2.
  specialize (IH rest2 w1' w2' Hrest Hnext).
  destruct (Backend.serve L client rest1 w1') as [rs1 w1''].
  destruct (Backend.serve L client rest2 w2') as [rs2 w2''].
  cbn in IH. cbn. by rewrite IH.
Qed.

Lemma extract_event_info_reads_now text w1 w2 :
  credential w1 = credential w2 →
  calls w1 = calls w2 →
  fst (Shell.extract_event_info L text w1)
  = fst (Shell.extract_event_info L text w2).
Proof.
  intros Hk Hcalls.
  destruct (OpenAI_init L (credential w2)) as [msg|] eqn:Hinit.
  - rewrite (extract_event_info_init_raises L text w1 msg) by congruence.
    by rewrite (extract_event_info_init_raises L text w2 msg).
  - rewrite !extract_event_info_init_ok by congruence.
    rewrite Hk, Hcalls. cbn.
    by destruct (responses_parse L _ _ (calls w2)) as [[ev|]|msg].
Qed.
End Runs.

(** C4, as amended.  The backend builds its client once, when the module is
    imported, from the credential then in the environment, and every
    outbound call goes through that client; but each request reads the
    variable again for the configured test, and the demo-shell function
    reads it again at every invocation.  So: two runs of the backend from
    the same start give the same responses whenever, request by request, the
    variable is set and non-empty in both or in neither (its later value
    does not matter otherwise); and two invocations of the demo-shell
    function from worlds with the same call history give the same result
    when the variable has the same value at the invocation. *)
Theorem credential_is_read_at_each_request (L : Libs) :
  (∀ w steps1 steps2,
     guard_view steps1 = guard_view steps2 →
     Backend.run L steps1 w = Backend.run L steps2 w)
  ∧ (∀ text w1 w2,
       credential w1 = credential w2 →
       calls w1 = calls w2 →
       fst (Shell.extract_event_info L text w1)
       = fst (Shell.extract_event_info L text w2)).
Proof.
  split.
  - intros w steps1 steps2 Hv. unfold Backend.run.
    destruct (Backend.module_client L w) as [[client|e] w1]; [|reflexivity].
    f_equal. by apply serve_guard.
  - intros text w1 w2. apply extract_event_info_reads_now.
Qed.

Lemma credential_is_read_at_each_request_witness :
  guard_view [(Some "sk-test", Stub.sample_request)]
  = guard_view [(Some "sk-other", Stub.sample_request)]
  ∧ Backend.run Stub.sdk [(Some "sk-test", Stub.sample_request)]
      (Stub.fresh Stub.env_key)
    = Backend.run Stub.sdk [(Some "sk-other", Stub.sample_request)]
        (Stub.fresh Stub.env_key).
Proof.
  split; [reflexivity|].
  apply (proj1 (credential_is_read_at_each_request Stub.sdk)).
  reflexivity.
Defined.

(** C4 as stated fails: two runs of the backend start from the same
    environment and get the same request; in the second the variable has
    been unset before the request arrives, and the responses differ. *)
Lemma later_change_of_credential_changes_response :
  Backend.run Stub.sdk [(Some "sk-test", Stub.sample_request)]
    (Stub.fresh Stub.env_key)
  = Some [ {| Backend.status := 200;
              Backend.body :=
                JObj [("success", JBool true);
                      ("event", model_dump Stub.science_fair)] |} ]
  ∧ Backend.run Stub.sdk [(None, Stub.sample_request)]
      (Stub.fresh Stub.env_key)
    = Some [ {| Backend.status := 500;
                Backend.body :=
                  JObj [("detail", JStr Backend.not_configured)] |} ]
  ∧ Backend.run Stub.sdk [(Some "sk-test", Stub.sample_request)]
      (Stub.fresh Stub.env_key)
    ≠ Backend.run Stub.sdk [(None, Stub.sample_request)]
        (Stub.fresh Stub.env_key).
Proof.
  split; [vm_compute; reflexivity|]. split; [vm_compute; reflexivity|].
  vm_compute. discriminate.
Qed.

(** ** A conforming answer *)

Lemma as_str_list_strings (ps : list string) :
  as_str_list (JList (JStr <$> ps)) = Some ps.
Proof.
  unfold as_str_list. induction ps as [|p ps IH]; [reflexivity|].
  cbn. cbn in IH. by rewrite IH.
Qed.

(** C5.  When the external service answers with the science fair event
    (name "science fair", date "Friday", participants Alice and Bob), the
    backend's handler returns success with exactly that event and the
    response is 200 with the body [{success: true, event: {...}}]; the
    demo-shell function returns exactly that three-field document. *)
Theorem science_fair_is_returned (L : Libs) client request text w :
  (credential_configured w = true →
   responses_parse L client (parse_request_for (Backend.text request)) (calls w)
   = output_parsed (Some Stub.science_fair) →
   fst (Backend.extract_event L client request w)
   = Ret {| Backend.success := true; Backend.event := Stub.science_fair |}
   ∧ fst (Backend.post_extract_event L client request w)
     = {| Backend.status := 200;
          Backend.body :=
            JObj [("success", JBool true);
                  ("event",
                   JObj [("name", JStr "science fair");
                         ("date", JStr "Friday");
                         ("participants",
                          JList [JStr "Alice"; JStr "Bob"])])] |})
  ∧ (OpenAI_init L (credential w) = None →
     responses_parse L {| api_key := credential w |} (parse_request_for text)
       (calls w)
     = output_parsed (Some Stub.science_fair) →
     fst (Shell.extract_event_info L text w)
     = Ret (JObj [("name", JStr "science fair");
                  ("date", JStr "Friday");
                  ("participants", JList [JStr "Alice"; JStr "Bob"])])).
Proof.
  split.
  - intros Hc Hp.
    rewrite extract_event_configured, post_extract_event_configured by done.
    cbn. by rewrite Hp.
  - intros Hinit Hp. rewrite extract_event_info_init_ok by done.
    cbv zeta. by rewrite Hp.
Qed.

Lemma science_fair_witness :
  fst (Backend.post_extract_event Stub.sdk {| api_key := Some "sk-test" |}
         Stub.sample_request (Stub.fresh Stub.env_key))
  = {| Backend.status := 200;
       Backend.body :=
         JObj [("success", JBool true);
               ("event",
                JObj [("name", JStr "science fair");
                      ("date", JStr "Friday");
                      ("participants", JList [JStr "Alice"; JStr "Bob"])])] |}
  ∧ fst (Shell.extract_event_info Stub.sdk Stub.sample
           (Stub.fresh Stub.env_key))
    = Ret (JObj [("name", JStr "science fair");
                 ("date", JStr "Friday");
                 ("participants", JList [JStr "Alice"; JStr "Bob"])]).
Proof.
  destruct (science_fair_is_returned Stub.sdk {| api_key := Some "sk-test" |}
              Stub.sample_request Stub.sample (Stub.fresh Stub.env_key))
    as [Hb Hs].
  split.
  - apply Hb; reflexivity.
  - apply Hs; reflexivity.
Defined.

(** C6.  Whatever list of participants the external service supplies in a
    conforming answer, the result carries that very list: the event of the
    backend's EventResponse, the [participants] array of the response body,
    and the [participants] entry of the demo shell's document all read back
    as the supplied list, element by element, in order, duplicates kept. *)
Theorem participants_are_passed_through
  (L : Libs) client request text w (n d : string) (ps : list string) :
  (credential_configured w = true →
   responses_parse L client (parse_request_for (Backend.text request)) (calls w)
   = output_parsed (Some {| name := n; date := d; participants := ps |}) →
   (∃ r, fst (Backend.extract_event L client request w) = Ret r
         ∧ participants (Backend.event r) = ps)
   ∧ body_participants
       (Backend.body (fst (Backend.post_extract_event L client request w)))
     = Some ps)
  ∧ (OpenAI_init L (credential w) = None →
     responses_parse L {| api_key := credential w |} (parse_request_for text)
       (calls w)
     = output_parsed (Some {| name := n; date := d; participants := ps |}) →
     ∃ j, fst (Shell.extract_event_info L text w) = Ret j
          ∧ participants_of j = Some ps).
Proof.
  split.
  - intros Hc Hp.
    rewrite extract_event_configured, post_extract_event_configured by done.
    cbn. rewrite Hp. cbn. split; [by eexists|].
    apply as_str_list_strings.
  - intros Hinit Hp. rewrite extract_event_info_init_ok by done.
    cbv zeta. rewrite Hp. cbn. eexists; split; [reflexivity|].
    apply as_str_list_strings.
Qed.

Lemma participants_witness :
  ∃ j, fst (Shell.extract_event_info Stub.sdk Stub.sample
              (Stub.fresh Stub.env_key)) = Ret j
       ∧ participants_of j = Some ["Alice"; "Bob"].
Proof.
  apply (participants_are_passed_through Stub.sdk {| api_key := Some "sk-test" |}
           Stub.sample_request Stub.sample (Stub.fresh Stub.env_key)
           "science fair" "Friday" ["Alice"; "Bob"]); reflexivity.
Defined.

Example duplicate_participants_are_kept :
  as_str_list (JList (JStr <$> ["Bob"; "Alice"; "Bob"]))
  = Some ["Bob"; "Alice"; "Bob"].
Proof. reflexivity. Qed.

(** ** Outbound calls *)

(** C7, as amended.  An invocation of either function invokes
    [client.responses.parse] at most once and never a second time: the
    backend's handler invokes it exactly once when the credential test
    passes and not at all when it does not; the demo-shell function invokes
    it exactly once when the client constructor returns and not at all when
    it raises.  This holds whether the invocation returns or raises: neither
    program calls again after a failure.  What is counted is invocations of
    the SDK method; the requests the SDK itself re-sends within one
    invocation are not, and neither program turns them off. *)
Theorem parse_is_invoked_at_most_once (L : Libs) client request text w :
  calls (snd (Backend.extract_event L client request w))
  = (calls w ++ if credential_configured w
                then [parse_request_for (Backend.text request)]
                else [])%list
  ∧ calls (snd (Shell.extract_event_info L text w))
    = (calls w ++ match OpenAI_init L (credential w) with
                  | None => [parse_request_for text]
                  | Some _ => []
                  end)%list.
Proof.
  split.
  - destruct (credential_configured w) eqn:Hc.
    + rewrite extract_event_configured by done. cbn.
      by destruct (responses_parse L client _ (calls w)) as [[ev|]|msg].
    + rewrite extract_event_unconfigured by done. cbn.
      by rewrite app_nil_r.
  - destruct (OpenAI_init L (credential w)) as [msg|] eqn:Hinit.
    + rewrite (extract_event_info_init_raises L text w msg) by done. cbn.
      by rewrite app_nil_r.
    + rewrite extract_event_info_init_ok by done. cbn.
      by destruct (responses_parse L _ _ (calls w)) as [[ev|]|msg].
Qed.

(** C7 as stated fails: a request that arrives while the credential is
    missing never reaches [client.responses.parse], so it makes no outbound
    call at all, not exactly one. *)
Lemma no_outbound_call_without_credential :
  fst (Backend.extract_event Stub.sdk {| api_key := Some "" |}
         Stub.sample_request (Stub.fresh Stub.env_empty_key))
  = Raise (HTTPException 500 Backend.not_configured)
  ∧ calls (snd (Backend.extract_event Stub.sdk {| api_key := Some "" |}
                  Stub.sample_request (Stub.fresh Stub.env_empty_key)))
    = []
  ∧ length (calls (snd (Backend.extract_event Stub.sdk {| api_key := Some "" |}
                          Stub.sample_request
                          (Stub.fresh Stub.env_empty_key))))
    ≠ 1%nat.
Proof.
  split; [vm_compute; reflexivity|]. split; [vm_compute; reflexivity|].
  vm_compute. discriminate.
Qed.

Example program_does_not_call_again_after_a_failure :
  Shell.extract_event_info Stub.flaky Stub.sample (Stub.fresh Stub.env_key)
  = (Ret (JObj [("error", JStr "Connection error.")]),
     add_call (parse_request_for Stub.sample) (Stub.fresh Stub.env_key)).
Proof. vm_compute. reflexivity. Qed.

(** ** Failures of the external call *)

(** C8.  In the demo shell, when the external call raises, the function
    returns the dict [{"error": str(e)}]: one key, whose value is the text
    of the raised exception, unchanged. *)
Theorem shell_error_is_verbatim (L : Libs) text w msg :
  OpenAI_init L (credential w) = None →
  responses_parse L {| api_key := credential w |} (parse_request_for text)
    (calls w)
  = parse_raises msg →
  fst (Shell.extract_event_info L text w) = Ret (JObj [("error", JStr msg)]).
Proof.
  intros Hinit Hp. rewrite extract_event_info_init_ok by done.
  cbv zeta. by rewrite Hp.
Qed.

Lemma shell_error_is_verbatim_witness :
  fst (Shell.extract_event_info Stub.sdk Stub.sample
         (Stub.fresh Stub.env_empty_key))
  = Ret (JObj [("error", JStr "401 Unauthorized")]).
Proof.
  apply (shell_error_is_verbatim Stub.sdk Stub.sample
           (Stub.fresh Stub.env_empty_key) "401 Unauthorized"); reflexivity.
Defined.

(** C10.  When the external call returns a response whose [output_parsed]
    is None, neither program reports success: building the EventResponse
    fails validation, so the backend answers 500 with the validation error
    behind the usual prefix; [None.model_dump()] raises AttributeError, so
    the demo-shell function returns [{"error": ...}] with that error's
    text. *)
Theorem unparsed_answer_is_a_failure (L : Libs) client request text w :
  (credential_configured w = true →
   responses_parse L client (parse_request_for (Backend.text request)) (calls w)
   = output_parsed None →
   fst (Backend.extract_event L client request w)
   = Raise (HTTPException 500 (Backend.failed_prefix ++ none_event_error L))
   ∧ fst (Backend.post_extract_event L client request w)
     = {| Backend.status := 500;
          Backend.body :=
            JObj [("detail",
                   JStr (Backend.failed_prefix ++ none_event_error L))] |})
  ∧ (OpenAI_init L (credential w) = None →
     responses_parse L {| api_key := credential w |} (parse_request_for text)
       (calls w)
     = output_parsed None →
     fst (Shell.extract_event_info L text w)
     = Ret (JObj [("error", JStr Shell.none_model_dump_error)])).
Proof.
  split.
  - intros Hc Hp.
    rewrite extract_event_configured, post_extract_event_configured by done.
    cbn. by rewrite Hp.
  - intros Hinit Hp. rewrite extract_event_info_init_ok by done.
    cbv zeta. by rewrite Hp.
Qed.

Lemma unparsed_answer_witness :
  fst (Backend.post_extract_event Stub.unparsed {| api_key := Some "sk-test" |}
         Stub.sample_request (Stub.fresh Stub.env_key))
  = {| Backend.status := 500;
       Backend.body :=
         JObj [("detail",
                JStr (Backend.failed_prefix
                      ++ none_event_error Stub.unparsed))] |}
  ∧ fst (Shell.extract_event_info Stub.unparsed Stub.sample
           (Stub.fresh Stub.env_key))
    = Ret (JObj [("error", JStr Shell.none_model_dump_error)]).
Proof.
  destruct (unparsed_answer_is_a_failure Stub.unparsed
              {| api_key := Some "sk-test" |} Stub.sample_request Stub.sample
              (Stub.fresh Stub.env_key)) as [Hb Hs].
  split.
  - apply Hb; reflexivity.
  - apply Hs; reflexivity.
Defined.

(** ** The unrelated controls *)

Lemma shown_json_snoc_other p e :
  (∀ j, e ≠ st_json j) →
  Shell.shown_json (p ++ [e]) = Shell.shown_json p.
Proof.
  intros He. unfold Shell.shown_json. rewrite omap_app. cbn.
  destruct e; try (by rewrite app_nil_r). by destruct (He j).
Qed.

Lemma shown_json_snoc_json p j :
  Shell.shown_json (p ++ [st_json j]) = (Shell.shown_json p ++ [j])%list.
Proof. unfold Shell.shown_json. by rewrite omap_app. Qed.

(** C9.  Two runs of the script that differ only in the name typed, the age
    chosen and the activity selected, with the same event text, the same
    buttons pressed and the same external service, end the same way, make
    the same outbound calls and show the same extraction results. *)
Theorem extraction_ignores_other_controls
  (L : Libs) ui (name : string) (age : Z) (activity : string) w :
  fst (Shell.app L ui w)
  = fst (Shell.app L (Shell.with_controls name age activity ui) w)
  ∧ calls (snd (Shell.app L ui w))
    = calls (snd (Shell.app L (Shell.with_controls name age activity ui) w))
  ∧ Shell.shown_json (page (snd (Shell.app L ui w)))
    = Shell.shown_json
        (page (snd (Shell.app L (Shell.with_controls name age activity ui) w))).
Proof.
  unfold Shell.app, Shell.with_controls, Shell.extract_event_info.
  py_unfold. cbn.
  destruct (Shell.nonempty (Shell.text_input ui)),
    (Shell.nonempty name), (Shell.button_extract ui),
    (Shell.button_click_me ui); cbn;
    try destruct (OpenAI_init L (environ w !! OPENAI_API_KEY)) as [m|]; cbn;
    try destruct (responses_parse L _ _ (calls w)) as [[ev|]|m']; cbn;
    repeat split;
    repeat first [ rewrite shown_json_snoc_json
                 | rewrite shown_json_snoc_other by discriminate ];
    reflexivity.
Qed.

Example extraction_with_other_controls :
  Shell.shown_json
    (page (snd (Shell.app Stub.sdk
                  (Shell.with_controls "Ada" 36 "Reading" Stub.ui)
                  (Stub.fresh Stub.env_key))))
  = [model_dump Stub.science_fair].
Proof. vm_compute. reflexivity. Qed.

(** * Further properties of the two programs *)

(** ** The backend's handler *)

(** X1.  A request to POST /api/extract-event that reaches the handler (its
    body has been validated as an EventRequest) is answered 200 exactly when
    the credential is set and non-empty and the external call returns a
    parsed event; every other such request is answered 500.  A body that
    fails validation is answered by FastAPI before the handler runs and is
    not covered here. *)
Theorem status_200_iff_parsed (L : Libs) client request w :
  let r := fst (Backend.post_extract_event L client request w) in
  (Backend.status r = 200
   ↔ credential_configured w = true
     ∧ ∃ ev, responses_parse L client
               (parse_request_for (Backend.text request)) (calls w)
             = output_parsed (Some ev))
  ∧ (Backend.status r = 200 ∨ Backend.status r = 500).
Proof.
  cbv zeta. destruct (credential_configured w) eqn:Hc.
  - rewrite post_extract_event_configured by done. cbv zeta.
    destruct (responses_parse L client _ (calls w)) as [[ev|]|msg]; cbn.
    + split; [|by left]. split; [|done]. intros _. split; [done|by exists ev].
    + split; [|by right]. split; [done|]. by intros [_ [ev Hev]].
    + split; [|by right]. split; [done|]. by intros [_ [ev Hev]].
  - rewrite post_extract_event_unconfigured by done. cbn.
    split; [|by right]. split; [done|]. by intros [Hf _].
Qed.

(** X2.  What the handler prints, cause by cause.  With the credential
    missing it prints nothing.  With the credential set and non-empty: when
    the external call returns a parsed event it prints nothing; when the
    call raises with text [msg] it raises HTTPException 500 with the prefix
    followed by [msg] and makes exactly one [print], of "Error extracting
    event: " followed by the same [msg]; when the call returns no parsed
    value it does the same with the text of the validation error.  (The text
    may span several lines; it is one [print].) *)
Theorem failure_is_printed_once (L : Libs) client request w :
  (credential_configured w = false →
   stdout (snd (Backend.extract_event L client request w)) = stdout w)
  ∧ (∀ ev,
       credential_configured w = true →
       responses_parse L client (parse_request_for (Backend.text request))
         (calls w)
       = output_parsed (Some ev) →
       stdout (snd (Backend.extract_event L client request w)) = stdout w)
  ∧ (∀ msg,
       credential_configured w = true →
       responses_parse L client (parse_request_for (Backend.text request))
         (calls w)
       = parse_raises msg →
       fst (Backend.extract_event L client request w)
       = Raise (HTTPException 500 (Backend.failed_prefix ++ msg))
       ∧ stdout (snd (Backend.extract_event L client request w))
         = (stdout w ++ [("Error extracting event: " ++ msg)%string])%list)
  ∧ (credential_configured w = true →
     responses_parse L client (parse_request_for (Backend.text request))
       (calls w)
     = output_parsed None →
     fst (Backend.extract_event L client request w)
     = Raise (HTTPException 500 (Backend.failed_prefix ++ none_event_error L))
     ∧ stdout (snd (Backend.extract_event L client request w))
       = (stdout w
          ++ [("Error extracting event: " ++ none_event_error L)%string])%list).
Proof.
  split; [|split; [|split]].
  - intros Hc. by rewrite extract_event_unconfigured.
  - intros ev Hc Hp. rewrite extract_event_configured by done.
    cbv zeta. by rewrite Hp.
  - intros msg Hc Hp. rewrite extract_event_configured by done.
    cbv zeta. by rewrite Hp.
  - intros Hc Hp. rewrite extract_event_configured by done.
    cbv zeta. by rewrite Hp.
Qed.

Lemma failure_is_printed_once_witness :
  credential_configured (Stub.fresh {[ OPENAI_API_KEY := "sk-wrong" ]}) = true
  ∧ responses_parse Stub.sdk {| api_key := Some "sk-wrong" |}
      (parse_request_for (Backend.text Stub.sample_request))
      (calls (Stub.fresh {[ OPENAI_API_KEY := "sk-wrong" ]}))
    = parse_raises "401 Unauthorized"
  ∧ stdout (snd (Backend.extract_event Stub.sdk {| api_key := Some "sk-wrong" |}
                   Stub.sample_request
                   (Stub.fresh {[ OPENAI_API_KEY := "sk-wrong" ]})))
    = ["Error extracting event: 401 Unauthorized"].
Proof.
  split; [reflexivity|]. split; [reflexivity|].
  apply (proj1 (proj2 (proj2 (failure_is_printed_once Stub.sdk
                                {| api_key := Some "sk-wrong" |}
                                Stub.sample_request
                                (Stub.fresh {[ OPENAI_API_KEY := "sk-wrong" ]}))))
           "401 Unauthorized");
    reflexivity.
Defined.

(** X3.  Neither function changes the process environment or the page, and
    the demo-shell function prints nothing: all that an invocation leaves
    behind is its outbound call and, in the backend, the printed line. *)
Theorem functions_leave_environment_alone (L : Libs) client request text w :
  (environ (snd (Backend.extract_event L client request w)) = environ w
   ∧ page (snd (Backend.extract_event L client request w)) = page w)
  ∧ (environ (snd (Shell.extract_event_info L text w)) = environ w
     ∧ stdout (snd (Shell.extract_event_info L text w)) = stdout w
     ∧ page (snd (Shell.extract_event_info L text w)) = page w).
Proof.
  split.
  - destruct (credential_configured w) eqn:Hc.
    + rewrite extract_event_configured by done. cbv zeta.
      by destruct (responses_parse L client _ (calls w)) as [[ev|]|msg].
    + by rewrite extract_event_unconfigured.
  - destruct (OpenAI_init L (credential w)) as [msg|] eqn:Hinit.
    + by rewrite (extract_event_info_init_raises L text w msg).
    + rewrite extract_event_info_init_ok by done. cbv zeta.
      by destruct (responses_parse L _ _ (calls w)) as [[ev|]|msg].
Qed.

(** X4.  An exception leaves the demo-shell function exactly when the client
    constructor raises, and it is then the constructor's exception; every
    failure of the call itself comes back as a returned dict. *)
Theorem shell_raises_iff_constructor_raises (L : Libs) text w ex :
  fst (Shell.extract_event_info L text w) = Raise ex
  ↔ ∃ msg, OpenAI_init L (credential w) = Some msg ∧ ex = Exception msg.
Proof.
  destruct (OpenAI_init L (credential w)) as [msg|] eqn:Hinit.
  - rewrite (extract_event_info_init_raises L text w msg) by done. cbn.
    split.
    + intros [= <-]. by exists msg.
    + by intros [m [[= <-] ->]].
  - rewrite extract_event_info_init_ok by done. cbv zeta.
    destruct (responses_parse L _ _ (calls w)) as [[ev|]|msg]; cbn;
      (split; [done | by intros [m [? _]]]).
Qed.

(** ** The backend against the demo shell *)

(** X5.  The backend is a faithful port of the demo-shell function.  From
    the same world, with the credential set and non-empty and the backend's
    client built from it, the two make the same outbound call, and: when the
    shell function returns an event document, the backend answers 200 with
    that very document as [event]; when the shell function returns
    [{"error": e}], the backend answers 500 with the prefixed text of the
    same failure (for an unparsed answer the two texts are those of the two
    different exceptions the programs run into). *)
Theorem backend_agrees_with_shell (L : Libs) text w :
  credential_configured w = true →
  OpenAI_init L (credential w) = None →
  let client := {| api_key := credential w |} in
  let post := Backend.post_extract_event L client {| Backend.text := text |} w in
  let shell := Shell.extract_event_info L text w in
  calls (snd post) = calls (snd shell)
  ∧ ∃ j, fst shell = Ret j
         ∧ ((is_event_document j
             ∧ fst post
               = {| Backend.status := 200;
                    Backend.body :=
                      JObj [("success", JBool true); ("event", j)] |})
            ∨ (∃ e d,
                 j = JObj [("error", JStr e)]
                 ∧ fst post
                   = {| Backend.status := 500;
                        Backend.body :=
                          JObj [("detail",
                                 JStr (Backend.failed_prefix ++ d))] |}
                 ∧ (d = e
                    ∨ (e = Shell.none_model_dump_error
                       ∧ d = none_event_error L)))).
Proof.
  intros Hc Hinit. cbv zeta.
  rewrite post_extract_event_configured, extract_event_info_init_ok by done.
  cbv zeta. cbn [Backend.text].
  destruct (responses_parse L _ _ (calls w)) as [[ev|]|msg]; cbn.
  - split; [done|]. eexists; split; [reflexivity|]. left.
    split; [by exists ev | done].
  - split; [done|]. eexists; split; [reflexivity|]. right.
    do 2 eexists. split; [reflexivity|]. split; [reflexivity|]. by right.
  - split; [done|]. eexists; split; [reflexivity|]. right.
    do 2 eexists. split; [reflexivity|]. split; [reflexivity|]. by left.
Qed.

Lemma backend_agrees_with_shell_witness :
  calls (snd (Backend.post_extract_event Stub.sdk
                {| api_key := credential (Stub.fresh Stub.env_key) |}
                {| Backend.text := Stub.sample |} (Stub.fresh Stub.env_key)))
  = calls (snd (Shell.extract_event_info Stub.sdk Stub.sample
                  (Stub.fresh Stub.env_key))).
Proof.
  apply (backend_agrees_with_shell Stub.sdk Stub.sample
           (Stub.fresh Stub.env_key)); reflexivity.
Defined.

(** ** The event, field by field *)

Lemma read_event_model_dump ev : read_event (model_dump ev) = Some ev.
Proof.
  destruct ev as [n d ps]. unfold read_event, participants_of. cbn.
  change (mapM as_str (JStr <$> ps)) with (as_str_list (JList (JStr <$> ps))).
  by rewrite as_str_list_strings.
Qed.

(** X6.  Whatever event the external service supplies, all three of its
    fields reach the caller unchanged: the demo shell's document and the
    [event] of the backend's 200 body both read back as the supplied event. *)
Theorem event_is_passed_through (L : Libs) client request text w ev :
  (credential_configured w = true →
   responses_parse L client (parse_request_for (Backend.text request)) (calls w)
   = output_parsed (Some ev) →
   body_event
     (Backend.body (fst (Backend.post_extract_event L client request w)))
   = Some ev)
  ∧ (OpenAI_init L (credential w) = None →
     responses_parse L {| api_key := credential w |} (parse_request_for text)
       (calls w)
     = output_parsed (Some ev) →
     ∃ j, fst (Shell.extract_event_info L text w) = Ret j
          ∧ read_event j = Some ev).
Proof.
  split.
  - intros Hc Hp. rewrite post_extract_event_configured by done.
    cbv zeta. rewrite Hp. unfold body_event. cbn [Backend.body fst].
    change (dict_get "event" _) with (Some (model_dump ev)).
    apply read_event_model_dump.
  - intros Hinit Hp. rewrite extract_event_info_init_ok by done.
    cbv zeta. rewrite Hp. eexists; split; [reflexivity|].
    apply read_event_model_dump.
Qed.

Lemma event_is_passed_through_witness :
  ∃ j, fst (Shell.extract_event_info Stub.sdk Stub.sample
              (Stub.fresh Stub.env_key)) = Ret j
       ∧ read_event j = Some Stub.science_fair.
Proof.
  apply (event_is_passed_through Stub.sdk {| api_key := Some "sk-test" |}
           Stub.sample_request Stub.sample (Stub.fresh Stub.env_key)
           Stub.science_fair); reflexivity.
Defined.

(** ** Runs of the backend *)

Lemma post_extract_event_calls (L : Libs) client request w :
  calls (snd (Backend.post_extract_event L client request w))
  = (calls w ++ if credential_configured w
                then [parse_request_for (Backend.text request)]
                else [])%list.
Proof.
  destruct (credential_configured w) eqn:Hc.
  - rewrite post_extract_event_configured by done. cbv zeta.
    by destruct (responses_parse L client _ (calls w)) as [[ev|]|msg].
  - rewrite post_extract_event_unconfigured by done. cbn.
    by rewrite app_nil_r.
Qed.

(** X7.  Over a run of the backend every request gets one response, and the
    invocations of [client.responses.parse] made are exactly those of the
    requests that arrived while the credential was set and non-empty: one
    invocation each, in request order, carrying that request's text.  A
    refused request adds none, and the handler does not invoke the method
    again after a failure.  Invocations are counted, not the HTTP requests
    the SDK sends for one invocation. *)
Theorem run_makes_the_due_calls (L : Libs) client steps :
  ∀ w,
    length (fst (Backend.serve L client steps w)) = length steps
    ∧ calls (snd (Backend.serve L client steps w))
      = (calls w ++ due_calls steps)%list.
Proof.
  induction steps as [|[v request] rest IH]; intros w.
  - cbn. by rewrite app_nil_r.
  - cbn [Backend.serve].
    pose proof (post_extract_event_calls L client request (set_credential v w))
      as Hcalls.
    rewrite credential_set_credential in Hcalls.
    destruct (Backend.post_extract_event L client request (set_credential v w))
      as [r w1].
    destruct (IH w1) as [Hlen Hrest].
    destruct (Backend.serve L client rest w1) as [rs w2].
    cbn in *. split; [by rewrite Hlen|].
    rewrite Hrest, Hcalls. unfold due_calls. cbn.
    destruct (truthy v); cbn; by rewrite <- app_assoc.
Qed.

(** ** The root route *)

(** X8.  In a run with requests to both routes, every GET / is answered 200
    with the static descriptor, whatever the credential and whatever the
    external service does; and the GET requests are inert: the POST requests
    get the responses they would get in the run without the GETs. *)
Theorem root_is_static_and_inert (L : Libs) client steps :
  ∀ w,
    Forall (λ r, r = {| Backend.status := 200;
                        Backend.body := Backend.read_root |})
      (Routes.get_responses steps (fst (Routes.serve L client steps w)))
    ∧ Routes.post_responses steps (fst (Routes.serve L client steps w))
      = fst (Backend.serve L client (Routes.posts_of steps) w).
Proof.
  induction steps as [|[v [|request]] rest IH]; intros w.
  - by cbn.
  - cbn. destruct (IH (set_credential v w)) as [Hget Hpost].
    destruct (Routes.serve L client rest (set_credential v w)) as [rs w2].
    cbn in *. split; [by constructor|].
    rewrite Hpost. by apply serve_guard.
  - cbn.
    destruct (Backend.post_extract_event L client request (set_credential v w))
      as [r w1].
    destruct (IH w1) as [Hget Hpost].
    destruct (Routes.serve L client rest w1) as [rs w2].
    destruct (Backend.serve L client (Routes.posts_of rest) w1) as [rs' w2'].
    cbn in *. split; [done|]. by rewrite Hpost.
Qed.

Example root_answers_without_credential :
  fst (Routes.serve Stub.sdk {| api_key := Some "sk-test" |}
         [(None, Routes.GET_root);
          (None, Routes.POST_extract_event Stub.sample_request);
          (None, Routes.GET_root)]
         (Stub.fresh Stub.env_key))
  = [ {| Backend.status := 200; Backend.body := Backend.read_root |};
      {| Backend.status := 500;
         Backend.body := JObj [("detail", JStr Backend.not_configured)] |};
      {| Backend.status := 200; Backend.body := Backend.read_root |} ].
Proof. vm_compute. reflexivity. Qed.

(** ** The script of the demo shell *)

Ltac script_cases L w ui :=
  unfold Shell.app, Shell.extract_event_info; py_unfold; cbn;
  destruct (Shell.nonempty (Shell.text_input ui)) eqn:?,
    (Shell.button_click_me ui) eqn:?; cbn;
  try destruct (OpenAI_init L (environ w !! OPENAI_API_KEY)) as [?|] eqn:?; cbn;
  try destruct (responses_parse L _ _ (calls w)) as [[?|]|?] eqn:?; cbn.

(** X9.  A run of the script in which "Extract Event Info" is not pressed
    runs to its end, makes no outbound call, shows no extraction result and
    leaves the environment as it is: typing a name, moving the slider or
    pressing "Click me!" never reaches the external service. *)
Theorem script_without_button_makes_no_call (L : Libs) ui w :
  Shell.button_extract ui = false →
  fst (Shell.app L ui w) = Ret tt
  ∧ calls (snd (Shell.app L ui w)) = calls w
  ∧ environ (snd (Shell.app L ui w)) = environ w
  ∧ Shell.shown_json (page (snd (Shell.app L ui w)))
    = Shell.shown_json (page w).
Proof.
  intros Hb. unfold Shell.app. rewrite Hb. script_cases L w ui;
    repeat split;
    repeat (rewrite shown_json_snoc_other by discriminate); reflexivity.
Qed.

Lemma script_without_button_witness :
  fst (Shell.app Stub.sdk
         (Shell.with_controls "Ada" 36 "Reading"
            {| Shell.text_input := ""; Shell.slider := 25;
               Shell.selectbox := "Programming";
               Shell.text_area := Stub.sample;
               Shell.button_extract := false;
               Shell.button_click_me := true |})
         (Stub.fresh Stub.env_key))
  = Ret tt.
Proof.
  apply (script_without_button_makes_no_call Stub.sdk
           (Shell.with_controls "Ada" 36 "Reading"
              {| Shell.text_input := ""; Shell.slider := 25;
                 Shell.selectbox := "Programming";
                 Shell.text_area := Stub.sample;
                 Shell.button_extract := false;
                 Shell.button_click_me := true |})
           (Stub.fresh Stub.env_key)).
  reflexivity.
Defined.

(** X10.  When "Extract Event Info" is pressed the script calls the function
    once on the content of the text area, from a world with the same
    environment and call history as at the start of the run.  If the
    function returns a document the script shows exactly that document with
    [st.json] and runs to its end; if the function raises (the client could
    not be built) the script stops there with that exception: nothing is
    shown, and the spinner is the last thing written. *)
Theorem script_shows_the_function_result (L : Libs) ui w :
  Shell.button_extract ui = true →
  calls (snd (Shell.app L ui w))
  = calls (snd (Shell.extract_event_info L (Shell.text_area ui) w))
  ∧ match fst (Shell.extract_event_info L (Shell.text_area ui) w) with
    | Ret j =>
        fst (Shell.app L ui w) = Ret tt
        ∧ Shell.shown_json (page (snd (Shell.app L ui w)))
          = (Shell.shown_json (page w) ++ [j])%list
    | Raise ex =>
        fst (Shell.app L ui w) = Raise ex
        ∧ Shell.shown_json (page (snd (Shell.app L ui w)))
          = Shell.shown_json (page w)
        ∧ last (page (snd (Shell.app L ui w)))
          = Some (st_spinner "Processing...")
    end.
Proof.
  intros Hb. unfold Shell.app. rewrite Hb. script_cases L w ui;
    repeat split;
    repeat first [ rewrite shown_json_snoc_json
                 | rewrite shown_json_snoc_other by discriminate
                 | rewrite last_snoc ];
    reflexivity.
Qed.

Lemma script_shows_the_function_result_witness :
  calls (snd (Shell.app Stub.sdk Stub.ui (Stub.fresh Stub.env_unset)))
  = calls (snd (Shell.extract_event_info Stub.sdk
                  (Shell.text_area Stub.ui) (Stub.fresh Stub.env_unset))).
Proof.
  apply (script_shows_the_function_result Stub.sdk Stub.ui
           (Stub.fresh Stub.env_unset)).
  reflexivity.
Defined.

Example script_stops_when_client_cannot_be_built :
  fst (Shell.app Stub.sdk Stub.ui (Stub.fresh Stub.env_unset))
  = Raise (Exception "The api_key client option must be set")
  ∧ last (page (snd (Shell.app Stub.sdk Stub.ui (Stub.fresh Stub.env_unset))))
    = Some (st_spinner "Processing...").
Proof. split; vm_compute; reflexivity. Qed.

(** X11.  The unrelated controls are echoed literally on every run, also on
    one that stops at the extraction: the age line carries the slider's
    value in decimal, the selection line carries the selected activity, and
    the greeting is written exactly when the name is not empty. *)
Theorem controls_are_echoed (L : Libs) ui w :
  page w = [] →
  (st_write ("Hello, " ++ Shell.text_input ui ++ "! ðŸ‘‹")
     ∈ page (snd (Shell.app L ui w))
   ↔ Shell.text_input ui ≠ "")
  ∧ st_write ("Your age: " ++ pretty (Shell.slider ui) ++ " years old")
      ∈ page (snd (Shell.app L ui w))
  ∧ st_write ("You selected: **" ++ Shell.selectbox ui ++ "**")
      ∈ page (snd (Shell.app L ui w)).
Proof.
  intros Hp.
  unfold Shell.app, Shell.extract_event_info. py_unfold. cbn.
  destruct (Shell.text_input ui) as [|c s] eqn:Hn; cbn;
    destruct (Shell.button_extract ui), (Shell.button_click_me ui); cbn;
    try destruct (OpenAI_init L (environ w !! OPENAI_API_KEY)) as [m|]; cbn;
    try destruct (responses_parse L _ _ (calls w)) as [[ev|]|m']; cbn;
    rewrite Hp; cbn.
  all: split; [|split; set_solver].
  all: split; [|try done; intros _; set_solver].
  all: try (intros _; discriminate).
  all: rewrite !elem_of_cons, elem_of_nil.
  all: intros H; exfalso.
  all: repeat (destruct H as [H|H]); try discriminate H; done.
Qed.

Lemma controls_are_echoed_witness :
  st_write "Your age: 36 years old"
    ∈ page (snd (Shell.app Stub.sdk
                   (Shell.with_controls "Ada" 36 "Reading" Stub.ui)
                   (Stub.fresh Stub.env_key))).
Proof.
  apply (controls_are_echoed Stub.sdk
           (Shell.with_controls "Ada" 36 "Reading" Stub.ui)
           (Stub.fresh Stub.env_key)).
  reflexivity.
Defined.

(** ** The guard and the import *)

Lemma configured_response_is_not_the_guard (L : Libs) client request w :
  credential_configured w = true →
  Backend.body (fst (Backend.post_extract_event L client request w))
  ≠ JObj [("detail", JStr Backend.not_configured)].
Proof.
  intros Hc. rewrite post_extract_event_configured by done. cbv zeta.
  destruct (responses_parse L client _ (calls w)) as [[ev|]|msg]; cbn;
    discriminate.
Qed.

Lemma serve_configured_never_guards (L : Libs) client steps :
  ∀ w r,
    Forall (λ p, truthy (fst p) = true) steps →
    r ∈ fst (Backend.serve L client steps w) →
    Backend.body r ≠ JObj [("detail", JStr Backend.not_configured)].
Proof.
  induction steps as [|[v request] rest IH]; intros w r Hall Hin.
  - cbn in Hin. by apply elem_of_nil in Hin.
  - apply Forall_cons in Hall as [Hv Hrest]. cbn in Hv.
    cbn [Backend.serve] in Hin.
    pose proof (configured_response_is_not_the_guard L client request
                  (set_credential v w)) as Hhead.
    rewrite credential_set_credential in Hhead. specialize (Hhead Hv).
    destruct (Backend.post_extract_event L client request (set_credential v w))
      as [r1 w1].
    pose proof (IH w1 r Hrest) as Htail.
    destruct (Backend.serve L client rest w1) as [rs w2].
    cbn in *. apply elem_of_cons in Hin as [-> | Hin]; [done | by apply Htail].
Qed.

(** X12.  The guard of the handler and the construction of the client at
    import read the same variable.  With an SDK whose constructor refuses a
    missing key, in a process whose environment keeps the value it had at
    import, a response carrying the "not configured" message can only mean
    that the variable is set to the empty string: with the variable unset
    the import fails and nothing is served, and with a non-empty value the
    guard lets every request through. *)
Theorem not_configured_means_empty_key
  (L : Libs) w steps rs r (msg : string) :
  OpenAI_init L None = Some msg →
  Forall (λ p, fst p = credential w) steps →
  Backend.run L steps w = Some rs →
  r ∈ rs →
  Backend.body r = JObj [("detail", JStr Backend.not_configured)] →
  credential w = Some "".
Proof.
  intros Hnone Hsame Hrun Hin Hbody.
  unfold Backend.run, Backend.module_client in Hrun. py_unfold.
  fold (credential w) in Hrun.
  destruct (credential w) as [s|] eqn:Hk.
  2: { rewrite Hnone in Hrun. discriminate. }
  destruct (OpenAI_init L (Some s)) as [m|]; [discriminate|].
  injection Hrun as <-.
  destruct (String.eqb s "") eqn:Hs; [by apply String.eqb_eq in Hs as ->|].
  exfalso. revert Hbody.
  apply (serve_configured_never_guards L {| api_key := Some s |} steps w r);
    [|done].
  eapply Forall_impl; [exact Hsame|]. intros [v rq] Hv. cbn in *.
  subst v. cbn. by rewrite Hs.
Qed.

Lemma not_configured_means_empty_key_witness :
  credential (Stub.fresh Stub.env_empty_key) = Some "".
Proof.
  apply (not_configured_means_empty_key Stub.sdk
           (Stub.fresh Stub.env_empty_key)
           [(Some "", Stub.sample_request)]
           [ {| Backend.status := 500;
                Backend.body :=
                  JObj [("detail", JStr Backend.not_configured)] |} ]
           {| Backend.status := 500;
              Backend.body := JObj [("detail", JStr Backend.not_configured)] |}
           "The api_key client option must be set").
  - reflexivity.
  - repeat constructor.
  - vm_compute. reflexivity.
  - constructor.
  - reflexivity.
Defined.
